(** * Token usage cost and sensitivity analysis (tco_cal.ipynb)

    A shallow embedding of the notebook's code cells, with two embeddings of
    its arithmetic.

    Exact arithmetic.  The cells are first embedded over canonical rationals
    [Qc]: every decimal literal stands for its exact decimal value ([0.03] is
    [3/100]) and [*], [/], [+] and [-] are exact.  This is the arithmetic of
    the real numbers in which the specification states its data model.  It is
    used for what does not depend on rounding: the order and the number of
    the rows the loops produce, the selection and the pivot of the
    visualization, the unguarded division of the savings print and the
    reference scenario, whose values are the same in both arithmetics.
    Python's true division [/] raises [ZeroDivisionError] on a zero divisor,
    for [int] and [float] alike, so it is a partial operation in an error
    monad.

    Machine arithmetic.  Module [Py] embeds [calculate_token_cost] and the
    savings print on the numbers the notebook really computes with: unbounded
    Python [int], binary64 Python [float], wrapping [numpy.int64] and
    [numpy.float64].  What the function returns, when it raises and the signs
    of its results are settled there.

    Module-level names.  The names bound by the parameter cell
    ([prompt_cost_per_1k_tokens], ..., [days]) are looked up when the code
    that mentions them runs; the embedding passes them explicitly as a record
    [globals], and [notebook] is the record of the values the cell binds. *)

From Stdlib Require Import QArith Qcanon ZArith List Sorted Lia SpecFloat.
Import ListNotations.

Set Implicit Arguments.

Local Open Scope Qc_scope.

(** ** Numbers *)

Module Num.

(** The rational [n/d]; a Python literal such as [0.03] is [dec 3 100]. *)
Definition dec (n : Z) (d : positive) : Qc := Q2Qc (n # d).

(** A Python [int]. *)
Definition int (n : Z) : Qc := Q2Qc (inject_Z n).

End Num.

(** ** Exceptions and the error monad *)

(** The exceptions the arithmetic of the notebook can raise. *)
Inductive exception : Type :=
| ZeroDivisionError
| OverflowError.

Inductive result (A : Type) : Type :=
| Return (a : A)
| Raise (e : exception).

Arguments Return {A} a.
Arguments Raise {A} e.

Definition bind {A B : Type} (m : result A) (k : A -> result B) : result B :=
  match m with
  | Return a => k a
  | Raise e => Raise e
  end.

Notation "x <- m ;; k" := (bind m (fun x => k))
  (at level 61, m at next level, right associativity).
Notation "' pat <- m ;; k" := (bind m (fun x => match x with pat => k end))
  (at level 61, pat pattern, m at next level, right associativity).

(** The call returned normally. *)
Definition succeeds {A : Type} (m : result A) : Prop := exists a, m = Return a.

(** The call was left by an exception, which nothing in the notebook
    catches. *)
Definition fails {A : Type} (m : result A) : Prop := exists e, m = Raise e.

(** Python's [x / y]. *)
Definition truediv (x y : Qc) : result Qc :=
  if Qc_eq_bool y 0 then Raise ZeroDivisionError else Return (x / y).

(** ** The parameter cell *)

Record globals : Type := Globals {
  prompt_cost_per_1k_tokens : Qc;
  completion_cost_per_1k_tokens : Qc;
  base_daily_requests : Qc;
  base_prompt_tokens : Qc;
  base_completion_tokens : Qc;
  days : Qc
}.

Definition notebook : globals := {|
  prompt_cost_per_1k_tokens := Num.dec 3 100;
  completion_cost_per_1k_tokens := Num.dec 6 100;
  base_daily_requests := Num.int 1000;
  base_prompt_tokens := Num.int 300;
  base_completion_tokens := Num.int 500;
  days := Num.int 30
|}.



(** ** [calculate_token_cost] *)

Section Cost.

Variable g : globals.

(** The function returns the tuple [(total_cost, prompt_cost,
    completion_cost)], in this order. *)
Definition calculate_token_cost
    (daily_requests prompt_tokens completion_tokens : Qc)
    : result (Qc * Qc * Qc) :=
  let total_prompt_tokens := prompt_tokens * daily_requests * days g in
  let total_completion_tokens := completion_tokens * daily_requests * days g in
  q_prompt <- truediv total_prompt_tokens (Num.int 1000) ;;
  let prompt_cost := q_prompt * prompt_cost_per_1k_tokens g in
  q_completion <- truediv total_completion_tokens (Num.int 1000) ;;
  let completion_cost := q_completion * completion_cost_per_1k_tokens g in
  let total_cost := prompt_cost + completion_cost in
  Return (total_cost, prompt_cost, completion_cost).

End Cost.

(** ** Baseline cell (Step 1) *)

Definition baseline_costs (g : globals) : result (Qc * Qc * Qc) :=
  calculate_token_cost g
    (base_daily_requests g) (base_prompt_tokens g) (base_completion_tokens g).

(** ** Sensitivity analysis cell (Step 2) *)

(** [numpy.arange(start, stop, step)] on integers with a positive step:
    [start, start + step, ...], up to but excluding [stop]. *)
Definition arange (start stop step : Z) : list Qc :=
  map (fun i => Num.int (start + Z.of_nat i * step))
      (seq 0 (Z.to_nat ((stop - start + step - 1) / step))).

Definition daily_requests_range : list Qc := arange 500 2001 500.
Definition prompt_tokens_range : list Qc := arange 100 501 100.
Definition completion_tokens_range : list Qc := arange 200 801 100.

(** One entry of [cost_matrix]:
    [(daily_requests, prompt_tokens, completion_tokens, total_cost)]. *)
Definition row : Type := (Qc * Qc * Qc * Qc)%type.

(** A [for x in xs:] loop whose body updates a state [S] and may raise: the
    body runs on the elements in order, and an exception ends the loop. *)
Fixpoint for_each {A S : Type} (xs : list A) (body : A -> S -> result S)
    (s : S) : result S :=
  match xs with
  | [] => Return s
  | x :: xs' => s' <- body x s ;; for_each xs' body s'
  end.

(** The three nested loops; the state is the list [cost_matrix], which starts
    empty and grows by [append].  The [print] calls are not modelled. *)
Definition sweep_body (g : globals)
    (daily_requests prompt_tokens completion_tokens : Qc)
    (cost_matrix : list row) : result (list row) :=
  '(total_cost, _, _) <-
      calculate_token_cost g daily_requests prompt_tokens completion_tokens ;;
  Return (cost_matrix ++
          [(daily_requests, prompt_tokens, completion_tokens, total_cost)]).

Definition sensitivity_analysis (g : globals)
    (daily_requests_range prompt_tokens_range completion_tokens_range : list Qc)
    : result (list row) :=
  for_each daily_requests_range (fun daily_requests =>
    for_each prompt_tokens_range (fun prompt_tokens =>
      for_each completion_tokens_range (fun completion_tokens =>
        sweep_body g daily_requests prompt_tokens completion_tokens)))
    [].

(** ** Prompt engineering cell (Step 3)

    The cell multiplies both base token counts by the literal [0.7]; the
    literal is the argument [factor] here, and [notebook_factor] is its value
    in the notebook. *)

Definition notebook_factor : Qc := Num.dec 7 10.

Section PromptEngineering.

Variable g : globals.
Variable factor : Qc.

Definition optimized_prompt_tokens : Qc := base_prompt_tokens g * factor.

Definition optimized_completion_tokens : Qc :=
  base_completion_tokens g * factor.

Definition optimized_costs : result (Qc * Qc * Qc) :=
  calculate_token_cost g
    (base_daily_requests g) optimized_prompt_tokens
    optimized_completion_tokens.

(** The two values formatted by the last [print] of the cell: the savings
    [baseline_cost - optimized_cost], then the percentage
    [((baseline_cost - optimized_cost) / baseline_cost) * 100]. *)
Definition cost_savings : result (Qc * Qc) :=
  '(baseline_cost, _, _) <- baseline_costs g ;;
  '(optimized_cost, _, _) <- optimized_costs ;;
  let savings := baseline_cost - optimized_cost in
  q <- truediv (baseline_cost - optimized_cost) baseline_cost ;;
  Return (savings, q * Num.int 100).

End PromptEngineering.

(** ** The operations as the specification words them *)

Module Spec.

(** The five steps of [computeCost]. *)
Definition total_input_tokens (g : globals) (r p : Qc) : Qc :=
  p * r * days g.
Definition total_output_tokens (g : globals) (r c : Qc) : Qc :=
  c * r * days g.
Definition input_cost (g : globals) (r p : Qc) : Qc :=
  total_input_tokens g r p / Num.int 1000 * prompt_cost_per_1k_tokens g.
Definition output_cost (g : globals) (r c : Qc) : Qc :=
  total_output_tokens g r c / Num.int 1000 * completion_cost_per_1k_tokens g.
Definition total_cost (g : globals) (r p c : Qc) : Qc :=
  input_cost g r p + output_cost g r c.

(** The result sequence of [sweep]: the Cartesian product in row-major
    order, daily requests outermost, completion tokens innermost. *)
Definition sweep (g : globals) (rs ps cs : list Qc) : list row :=
  flat_map (fun r =>
    flat_map (fun p =>
      map (fun c => (r, p, c, total_cost g r p c)) cs) ps) rs.

End Spec.

(** ** Visualization cell (Step 4)

    The cell builds a data frame from [cost_matrix], keeps the rows of the
    base request count and pivots them for the heatmap.  A frame is embedded
    as the list of its rows; the drawing itself is not modelled. *)












(** * The cost function in Python's and NumPy's own arithmetic

    The definitions above compute with exact rationals.  [Py] embeds
    [calculate_token_cost] and the cells that call it on the numbers the
    notebook really passes:
    Python [int] (unbounded), Python [float] (IEEE binary64, every operation
    rounded to nearest, ties to even), [numpy.int64] (the elements of the
    three ranges; products wrap modulo 2^64) and [numpy.float64].  Binary64
    is [spec_float] with the operations of the standard library's
    [SpecFloat] at precision 53 and maximal exponent 1024. *)

Module Py.

Local Open Scope Z_scope.

Definition prec : Z := 53.
Definition emax : Z := 1024.

Definition fmul : spec_float -> spec_float -> spec_float := SFmul prec emax.
Definition fdiv : spec_float -> spec_float -> spec_float := SFdiv prec emax.
Definition fadd : spec_float -> spec_float -> spec_float := SFadd prec emax.
Definition fsub : spec_float -> spec_float -> spec_float := SFsub prec emax.

(** An integer as an unrounded mantissa with exponent 0. *)
Definition raw (n : Z) : spec_float :=
  match n with
  | Z0 => S754_zero false
  | Zpos m => S754_finite false m 0
  | Zneg m => S754_finite true m 0
  end.

(** The binary64 number nearest to the integer [n] (infinite when [n] is
    beyond the range). *)
Definition float_of_Z (n : Z) : spec_float := binary_normalize prec emax n 0 false.

(** The binary64 number nearest to [n / d]: the value of a decimal literal
    such as [0.03], and that of a printed float such as
    [0.018899999999999997]. *)
Definition dec (n : Z) (d : positive) : spec_float :=
  fdiv (raw n) (raw (Zpos d)).

Definition is_finite (x : spec_float) : bool :=
  match x with
  | S754_zero _ | S754_finite _ _ _ => true
  | S754_infinity _ | S754_nan => false
  end.

Definition is_zero (x : spec_float) : bool :=
  match x with
  | S754_zero _ => true
  | _ => false
  end.

(** Signed 64-bit wrap-around. *)
Definition wrap64 (z : Z) : Z := (z + 2 ^ 63) mod 2 ^ 64 - 2 ^ 63.

Definition in_int64 (z : Z) : bool := (- 2 ^ 63 <=? z) && (z <? 2 ^ 63).

Inductive number : Type :=
| PyInt (n : Z)
| PyFloat (x : spec_float)
| NpInt64 (n : Z)
| NpFloat64 (x : spec_float).

Definition is_numpy (a : number) : bool :=
  match a with
  | PyInt _ | PyFloat _ => false
  | NpInt64 _ | NpFloat64 _ => true
  end.

(** Conversion of an operand to binary64.  A Python int too large for a
    float raises [OverflowError]; an int64 always fits. *)
Definition to_float (a : number) : result spec_float :=
  match a with
  | PyInt n =>
      let x := float_of_Z n in
      if is_finite x then Return x else Raise OverflowError
  | NpInt64 n => Return (float_of_Z n)
  | PyFloat x | NpFloat64 x => Return x
  end.

(** A float result is a [numpy.float64] as soon as one operand is a NumPy
    value. *)
Definition float_result (a b : number) (x : spec_float) : number :=
  if is_numpy a || is_numpy b then NpFloat64 x else PyFloat x.

(** [a * b], [a + b] and [a - b].  Two Python ints give the exact Python
    int.  An int64 with an int64, or with a Python int that fits 64 bits
    (NumPy 2 raises [OverflowError] for one that does not), gives the wrapped
    int64.  Otherwise both operands are converted to binary64 and the result
    is rounded. *)
Definition arith (zop : Z -> Z -> Z)
    (fop : spec_float -> spec_float -> spec_float) (a b : number)
    : result number :=
  match a, b with
  | PyInt m, PyInt n => Return (PyInt (zop m n))
  | NpInt64 m, NpInt64 n => Return (NpInt64 (wrap64 (zop m n)))
  | NpInt64 m, PyInt n =>
      if in_int64 n then Return (NpInt64 (wrap64 (zop m n)))
      else Raise OverflowError
  | PyInt m, NpInt64 n =>
      if in_int64 m then Return (NpInt64 (wrap64 (zop m n)))
      else Raise OverflowError
  | _, _ =>
      x <- to_float a ;;
      y <- to_float b ;;
      Return (float_result a b (fop x y))
  end.

Definition mul : number -> number -> result number := arith Z.mul fmul.
Definition add : number -> number -> result number := arith Z.add fadd.
Definition sub : number -> number -> result number := arith Z.sub fsub.

(** [a / b].  Two Python ints give the correctly rounded quotient, or raise
    [ZeroDivisionError] or, when the quotient is beyond the range of a float,
    [OverflowError].  With a NumPy operand the division is that of binary64
    and never raises.  Otherwise Python converts both operands and raises
    [ZeroDivisionError] on a zero divisor. *)
Definition truediv (a b : number) : result number :=
  match a, b with
  | PyInt m, PyInt n =>
      if n =? 0 then Raise ZeroDivisionError
      else
        let q := fdiv (raw m) (raw n) in
        if is_finite q then Return (PyFloat q) else Raise OverflowError
  | NpInt64 m, NpInt64 n =>
      Return (NpFloat64 (fdiv (float_of_Z m) (float_of_Z n)))
  | NpInt64 m, PyInt n =>
      if in_int64 n
      then Return (NpFloat64 (fdiv (float_of_Z m) (float_of_Z n)))
      else Raise OverflowError
  | PyInt m, NpInt64 n =>
      if in_int64 m
      then Return (NpFloat64 (fdiv (float_of_Z m) (float_of_Z n)))
      else Raise OverflowError
  | _, _ =>
      x <- to_float a ;;
      y <- to_float b ;;
      if is_numpy a || is_numpy b then Return (NpFloat64 (fdiv x y))
      else if is_zero y then Raise ZeroDivisionError
      else Return (PyFloat (fdiv x y))
  end.

(** The parameter cell. *)
Record globals : Type := Globals {
  prompt_cost_per_1k_tokens : number;
  completion_cost_per_1k_tokens : number;
  base_daily_requests : number;
  base_prompt_tokens : number;
  base_completion_tokens : number;
  days : number
}.

Definition notebook : globals := {|
  prompt_cost_per_1k_tokens := PyFloat (dec 3 100);
  completion_cost_per_1k_tokens := PyFloat (dec 6 100);
  base_daily_requests := PyInt 1000;
  base_prompt_tokens := PyInt 300;
  base_completion_tokens := PyInt 500;
  days := PyInt 30
|}.

(** [calculate_token_cost], statement by statement. *)
Definition calculate_token_cost (g : globals)
    (daily_requests prompt_tokens completion_tokens : number)
    : result (number * number * number) :=
  tokens_by_requests <- mul prompt_tokens daily_requests ;;
  total_prompt_tokens <- mul tokens_by_requests (days g) ;;
  completions_by_requests <- mul completion_tokens daily_requests ;;
  total_completion_tokens <- mul completions_by_requests (days g) ;;
  prompt_thousands <- truediv total_prompt_tokens (PyInt 1000) ;;
  prompt_cost <- mul prompt_thousands (prompt_cost_per_1k_tokens g) ;;
  completion_thousands <- truediv total_completion_tokens (PyInt 1000) ;;
  completion_cost <- mul completion_thousands (completion_cost_per_1k_tokens g) ;;
  total_cost <- add prompt_cost completion_cost ;;
  Return (total_cost, prompt_cost, completion_cost).

(** The baseline cell and the prompt engineering cell; [factor] is the
    literal [0.7]. *)
Definition baseline_costs (g : globals) : result (number * number * number) :=
  calculate_token_cost g
    (base_daily_requests g) (base_prompt_tokens g) (base_completion_tokens g).

Definition optimized_costs (g : globals) (factor : number)
    : result (number * number * number) :=
  optimized_prompt_tokens <- mul (base_prompt_tokens g) factor ;;
  optimized_completion_tokens <- mul (base_completion_tokens g) factor ;;
  calculate_token_cost g
    (base_daily_requests g) optimized_prompt_tokens
    optimized_completion_tokens.

(** The two values of the last [print]: [baseline_cost - optimized_cost]
    and [((baseline_cost - optimized_cost) / baseline_cost) * 100]. *)
Definition cost_savings (g : globals) (factor : number)
    : result (number * number) :=
  '(baseline_cost, _, _) <- baseline_costs g ;;
  '(optimized_cost, _, _) <- optimized_costs g factor ;;
  savings <- sub baseline_cost optimized_cost ;;
  difference <- sub baseline_cost optimized_cost ;;
  ratio <- truediv difference baseline_cost ;;
  percentage <- mul ratio (PyInt 100) ;;
  Return (savings, percentage).

(** The float [1000.0] the divisor is converted to. *)
Definition thousand : spec_float := float_of_Z 1000.

(** One cost component on binary64 operands:
    [((tokens * requests) * days / 1000) * rate], each operation rounded. *)
Definition component (tokens requests d rate : spec_float) : spec_float :=
  fmul (fdiv (fmul (fmul tokens requests) d) thousand) rate.

(** A float that is not negative: [NaN], a zero, or a number or infinity
    with the sign bit clear. *)
Definition notneg (x : spec_float) : Prop :=
  match x with
  | S754_nan | S754_zero _ => True
  | S754_infinity s | S754_finite s _ _ => s = false
  end.

(** A float that is not [NaN] and has sign bit [s]. *)
Definition signed (s : bool) (x : spec_float) : Prop :=
  match x with
  | S754_nan => False
  | S754_zero s' | S754_infinity s' | S754_finite s' _ _ => s' = s
  end.

(** A Python number that is not negative. *)
Definition nonnegative (a : number) : Prop :=
  match a with
  | PyInt n => 0 <= n
  | PyFloat x => notneg x
  | NpInt64 _ | NpFloat64 _ => False
  end.

(** The computation returns a value with property [P], or raises
    [OverflowError]. *)
Definition ensures {A : Type} (P : A -> Prop) (m : result A) : Prop :=
  match m with
  | Return a => P a
  | Raise e => e = OverflowError
  end.

End Py.

(** * Properties *)

(** ** Arithmetic of [Qc] used below *)

Lemma int_1000_nonzero : Num.int 1000 <> 0.
Proof.
  unfold Num.int. intro H. apply Q2Qc_eq_iff in H. discriminate H.
Qed.

(** ** [truediv] *)

Lemma truediv_nonzero (x y : Qc) : y <> 0 -> truediv x y = Return (x / y).
Proof.
  intro Hy. unfold truediv, Qc_eq_bool.
  destruct (Qc_eq_dec y 0) as [E | _]; [contradiction | reflexivity].
Qed.


Lemma succeeds_not_fails {A : Type} (m : result A) : succeeds m -> ~ fails m.
Proof. intros [a Ha] [e He]. congruence. Qed.

(** ** [calculate_token_cost] computes the five-step formula *)

(** The division by the literal [1000] never raises, so the function returns
    on every argument, and what it returns is the formula. *)
Lemma calculate_token_cost_eq (g : globals) (r p c : Qc) :
  calculate_token_cost g r p c
  = Return (Spec.total_cost g r p c, Spec.input_cost g r p,
            Spec.output_cost g r c).
Proof.
  unfold calculate_token_cost.
  rewrite !(truediv_nonzero _ int_1000_nonzero). reflexivity.
Qed.

(** Evaluation of closed goals over [Qc]: equalities between records are
    reduced to equalities of the rationals they hold, orders are decided by
    computation. *)
Ltac qc_eq := apply Qc_is_canon; vm_compute; reflexivity.


Ltac qc_eval :=
  repeat match goal with
         | |- _ /\ _ => split
         | |- Return _ = Return _ => apply f_equal
         | |- (_, _) = (_, _) => apply f_equal2
         | |- Some _ = Some _ => apply f_equal
         | |- @eq Qc _ _ => qc_eq
         | |- Qcle _ _ => vm_compute; discriminate
         | |- Qclt _ _ => vm_compute; reflexivity
         | |- @eq bool _ _ => vm_compute; reflexivity
         end.

(** ** The sweep *)

Section Loops.

Context {A B : Type}.

(** A loop whose body appends [f x] to the state and never raises returns
    the state extended by the concatenation of the [f x], in order. *)
Lemma for_each_append (f : A -> list B)
    (body : A -> list B -> result (list B)) :
  (forall x s, body x s = Return (s ++ f x)) ->
  forall xs s, for_each xs body s = Return (s ++ flat_map f xs).
Proof.
  intros Hbody xs.
  induction xs as [| x xs IH]; intro s; cbn [for_each flat_map].
  - now rewrite app_nil_r.
  - rewrite Hbody. cbn [bind]. rewrite IH. now rewrite app_assoc.
Qed.

Lemma flat_map_singleton (h : A -> B) (xs : list A) :
  flat_map (fun x => [h x]) xs = map h xs.
Proof.
  induction xs as [| x xs IH]; [reflexivity |].
  cbn [flat_map map app]. now rewrite IH.
Qed.

Lemma length_flat_map_uniform (f : A -> list B) (n : nat) (xs : list A) :
  (forall x, length (f x) = n) ->
  length (flat_map f xs) = (length xs * n)%nat.
Proof.
  intro Hn. induction xs as [| x xs IH]; [reflexivity |].
  cbn [flat_map length]. rewrite length_app, Hn, IH. reflexivity.
Qed.


End Loops.

(** The three ranges of the notebook. *)
Lemma notebook_ranges :
  daily_requests_range = map Num.int [500; 1000; 1500; 2000]%Z
  /\ prompt_tokens_range = map Num.int [100; 200; 300; 400; 500]%Z
  /\ completion_tokens_range
     = map Num.int [200; 300; 400; 500; 600; 700; 800]%Z.
Proof. repeat split. Qed.

Lemma sweep_body_eq (g : globals) (r p c : Qc) (cost_matrix : list row) :
  sweep_body g r p c cost_matrix
  = Return (cost_matrix ++ [(r, p, c, Spec.total_cost g r p c)]).
Proof. unfold sweep_body. now rewrite calculate_token_cost_eq. Qed.

(** The three loops never raise and leave in [cost_matrix] the Cartesian
    product in the order of the specification. *)
Lemma sensitivity_analysis_eq (g : globals) (rs ps cs : list Qc) :
  sensitivity_analysis g rs ps cs = Return (Spec.sweep g rs ps cs).
Proof.
  unfold sensitivity_analysis, Spec.sweep.
  rewrite for_each_append
    with (f := fun r => flat_map (fun p =>
                 map (fun c => (r, p, c, Spec.total_cost g r p c)) cs) ps);
    [reflexivity |].
  intros r s.
  rewrite for_each_append
    with (f := fun p => map (fun c => (r, p, c, Spec.total_cost g r p c)) cs);
    [reflexivity |].
  intros p s'.
  rewrite for_each_append
    with (f := fun c => [(r, p, c, Spec.total_cost g r p c)]).
  - now rewrite flat_map_singleton.
  - intros c s''. apply sweep_body_eq.
Qed.

Lemma sweep_length (g : globals) (rs ps cs : list Qc) :
  length (Spec.sweep g rs ps cs)
  = (length rs * length ps * length cs)%nat.
Proof.
  unfold Spec.sweep.
  rewrite length_flat_map_uniform with (n := (length ps * length cs)%nat).
  - now rewrite Nat.mul_assoc.
  - intro r. apply length_flat_map_uniform. intro p. apply length_map.
Qed.




(** The third end-to-end scenario of the specification: two values per
    range give 8 rows, the first of which is [(500, 100, 200, 225)]. *)
Lemma sweep_two_by_two_by_two :
  exists cost_matrix : list row,
    sensitivity_analysis notebook
      (map Num.int [500; 1000]%Z) (map Num.int [100; 200]%Z)
      (map Num.int [200; 300]%Z) = Return cost_matrix
    /\ length cost_matrix = 8%nat
    /\ nth_error cost_matrix 0
       = Some (Num.int 500, Num.int 100, Num.int 200, Num.int 225).
Proof.
  eexists. split; [apply sensitivity_analysis_eq |].
  split; [reflexivity |].
  cbn [Spec.sweep map flat_map app nth_error]. qc_eval.
Qed.

(** C9. When at least one of the three ranges is empty the sweep returns the
    empty result sequence, and it raises nothing. *)
Theorem sweep_empty_range (g : globals) (rs ps cs : list Qc) :
  rs = [] \/ ps = [] \/ cs = [] ->
  sensitivity_analysis g rs ps cs = Return []
  /\ ~ fails (sensitivity_analysis g rs ps cs).
Proof.
  intro Hempty.
  assert (E : sensitivity_analysis g rs ps cs = Return []).
  { rewrite sensitivity_analysis_eq. f_equal.
    apply length_zero_iff_nil. rewrite sweep_length.
    destruct Hempty as [-> | [-> | ->]]; cbn [length]; lia. }
  split; [exact E |].
  apply succeeds_not_fails. rewrite E. eexists. reflexivity.
Qed.

Lemma sweep_empty_range_witness :
  ([] = @nil Qc \/ prompt_tokens_range = [] \/ completion_tokens_range = [])
  /\ sensitivity_analysis notebook [] prompt_tokens_range
       completion_tokens_range = Return []
  /\ sensitivity_analysis notebook daily_requests_range prompt_tokens_range []
     = Return [].
Proof.
  split; [left; reflexivity |].
  split.
  - apply (sweep_empty_range notebook (rs := []) (ps := prompt_tokens_range)
             (cs := completion_tokens_range)).
    left. reflexivity.
  - apply (sweep_empty_range notebook (rs := daily_requests_range)
             (ps := prompt_tokens_range) (cs := [])).
    right. right. reflexivity.
Defined.

(** ** The prompt engineering scenario *)



(** C8. The reference scenario: with rates (0.03, 0.06) and parameters
    (1000, 300, 500, 30) the input cost is 270, the output cost 900 and the
    total 1170; with the factor 0.7 the token counts become 210 and 350, the
    input cost 189, the output cost 630 and the total 819; the savings are
    351 and the percentage is 30. *)
Theorem reference_scenario :
  Spec.total_input_tokens notebook (Num.int 1000) (Num.int 300)
  = Num.int 9000000
  /\ Spec.total_output_tokens notebook (Num.int 1000) (Num.int 500)
     = Num.int 15000000
  /\ baseline_costs notebook
     = Return (Num.int 1170, Num.int 270, Num.int 900)
  /\ optimized_prompt_tokens notebook notebook_factor = Num.int 210
  /\ optimized_completion_tokens notebook notebook_factor = Num.int 350
  /\ optimized_costs notebook notebook_factor
     = Return (Num.int 819, Num.int 189, Num.int 630)
  /\ cost_savings notebook notebook_factor
     = Return (Num.int 351, Num.int 30).
Proof.
  assert (B : baseline_costs notebook
              = Return (Num.int 1170, Num.int 270, Num.int 900)).
  { unfold baseline_costs. rewrite calculate_token_cost_eq. qc_eval. }
  assert (O : optimized_costs notebook notebook_factor
              = Return (Num.int 819, Num.int 189, Num.int 630)).
  { unfold optimized_costs. rewrite calculate_token_cost_eq. qc_eval. }
  do 2 (split; [qc_eq |]).
  split; [exact B |].
  do 2 (split; [qc_eq |]).
  split; [exact O |].
  unfold cost_savings. rewrite B, O. cbn [bind].
  rewrite truediv_nonzero by (intro H; apply Q2Qc_eq_iff in H; discriminate H).
  cbn [bind]. qc_eval.
Qed.





(** * Further properties of the sweep *)






(** * Properties of the visualization cell *)






(** ** Axis labels *)





(** ** Keys of the selected rows *)

(** The (completion tokens, prompt tokens) pair of a row. *)
Local Abbreviation key :=
  (fun x : Qc * Qc * Qc * Qc => (snd (fst x), snd (fst (fst x)))).

















(** * Binary64 facts *)

Module PyFacts.

Import Py.

Local Open Scope Z_scope.

Lemma shr_1_nonneg (mrs : shr_record) :
  0 <= shr_m mrs -> 0 <= shr_m (shr_1 mrs).
Proof.
  destruct mrs as [m r s]. destruct m as [| [p | p |] | p]; cbn; lia.
Qed.

Lemma iter_pos_invariant {A : Type} (P : A -> Prop) (f : A -> A) :
  (forall x, P x -> P (f x)) ->
  forall (n : positive) (x : A), P x -> P (iter_pos f n x).
Proof.
  intros Hf n. induction n as [n IH | n IH |]; intros x Hx; cbn; auto.
Qed.

Lemma shr_nonneg (mrs : shr_record) (e n : Z) :
  0 <= shr_m mrs -> 0 <= shr_m (fst (shr mrs e n)).
Proof.
  intro H. destruct n as [| n | n]; cbn [shr fst]; [exact H | | exact H].
  now apply iter_pos_invariant; [apply shr_1_nonneg |].
Qed.

Lemma shr_fexp_nonneg (m e : Z) (l : location) :
  0 <= m -> 0 <= shr_m (fst (shr_fexp prec emax m e l)).
Proof.
  intro H. unfold shr_fexp. apply shr_nonneg.
  now destruct l as [| []].
Qed.

Lemma round_nearest_even_nonneg (m : Z) (l : location) :
  0 <= m -> 0 <= round_nearest_even m l.
Proof.
  intro H. destruct l as [| []]; cbn; [lia | | lia | lia].
  destruct (Z.even m); lia.
Qed.

(** Rounding a non-negative mantissa keeps the sign and never gives
    [NaN]. *)
Lemma binary_round_aux_signed (s : bool) (m e : Z) (l : location) :
  0 <= m -> signed s (binary_round_aux prec emax s m e l).
Proof.
  intro Hm. unfold binary_round_aux.
  pose proof (shr_fexp_nonneg e l Hm) as H1.
  destruct (shr_fexp prec emax m e l) as [mrs' e']. cbn [fst] in H1.
  pose proof (shr_fexp_nonneg e' loc_Exact
                (round_nearest_even_nonneg (loc_of_shr_record mrs') H1)) as H2.
  destruct (shr_fexp prec emax _ e' loc_Exact) as [mrs'' e''].
  cbn [fst] in H2.
  destruct (shr_m mrs'') as [| q | q]; [reflexivity | | lia].
  now destruct (e'' <=? emax - prec).
Qed.

Lemma binary_round_signed (s : bool) (m : positive) (e : Z) :
  signed s (binary_round prec emax s m e).
Proof.
  unfold binary_round. destruct (shl_align m e _) as [mz ez].
  now apply binary_round_aux_signed.
Qed.

Lemma signed_notneg (x : spec_float) : signed false x -> notneg x.
Proof. destruct x; cbn; auto. Qed.

Lemma float_of_Z_signed (n : Z) : 0 <= n -> signed false (float_of_Z n).
Proof.
  intro H. unfold float_of_Z, binary_normalize.
  destruct n as [| m | m]; [reflexivity | apply binary_round_signed | lia].
Qed.

Lemma SFdiv_core_nonneg (mx my : positive) (ex ey : Z) :
  0 <= fst (fst (SFdiv_core_binary prec emax (Zpos mx) ex (Zpos my) ey)).
Proof.
  unfold SFdiv_core_binary.
  set (s := _ - _ - _).
  set (m' := match s with Z0 => Zpos mx | Zpos _ => Z.shiftl (Zpos mx) s
                     | Zneg _ => 0 end).
  assert (Hm : 0 <= m').
  { unfold m'. destruct s; [lia | | lia]. apply Z.shiftl_nonneg. lia. }
  pose proof (Z.div_pos m' (Zpos my) Hm ltac:(lia)) as Hq.
  unfold Z.div in Hq.
  destruct (Z.div_eucl m' (Zpos my)) as [q r]. exact Hq.
Qed.

(** Multiplying or dividing by a finite non-zero number combines the
    signs; adding two numbers of one sign keeps it. *)
Lemma fmul_signed (s : bool) (x : spec_float) (sy : bool) (my : positive)
    (ey : Z) :
  signed s x -> signed (xorb s sy) (fmul x (S754_finite sy my ey)).
Proof.
  destruct x as [sx | sx | | sx mx ex]; cbn [signed]; intro H;
    [now subst | now subst | contradiction | subst sx].
  apply binary_round_aux_signed. lia.
Qed.

Lemma fdiv_signed (s : bool) (x : spec_float) (sy : bool) (my : positive)
    (ey : Z) :
  signed s x -> signed (xorb s sy) (fdiv x (S754_finite sy my ey)).
Proof.
  destruct x as [sx | sx | | sx mx ex]; cbn [signed]; intro H;
    [now subst | now subst | contradiction | subst sx].
  unfold fdiv, SFdiv.
  pose proof (SFdiv_core_nonneg mx my ex ey) as Hq.
  destruct (SFdiv_core_binary prec emax (Zpos mx) ex (Zpos my) ey)
    as [[mz ez] lz].
  now apply binary_round_aux_signed.
Qed.

Lemma fadd_signed (s : bool) (x y : spec_float) :
  signed s x -> signed s y -> signed s (fadd x y).
Proof.
  destruct x as [sx | sx | | sx mx ex], y as [sy | sy | | sy my ey];
    cbn [signed]; intros Hx Hy; try contradiction; subst;
    try (now destruct s).
  unfold fadd, SFadd, binary_normalize.
  destruct s; cbn [cond_Zopp Z.add Z.opp]; apply binary_round_signed.
Qed.

Lemma fmul_notneg (x y : spec_float) :
  notneg x -> notneg y -> notneg (fmul x y).
Proof.
  destruct x as [sx | sx | | sx mx ex], y as [sy | sy | | sy my ey];
    cbn [notneg]; intros Hx Hy; subst; try exact I; try reflexivity.
  apply signed_notneg, (binary_round_aux_signed (xorb false false)). lia.
Qed.

Lemma fdiv_notneg (x : spec_float) (my : positive) (ey : Z) :
  notneg x -> notneg (fdiv x (S754_finite false my ey)).
Proof.
  destruct x as [sx | sx | | sx mx ex]; cbn [notneg]; intro Hx; subst;
    try exact I; try reflexivity.
  apply signed_notneg, (@fdiv_signed false (S754_finite false mx ex) false).
  reflexivity.
Qed.

Lemma fadd_notneg (x y : spec_float) :
  notneg x -> notneg y -> notneg (fadd x y).
Proof.
  destruct x as [sx | sx | | sx mx ex], y as [sy | sy | | sy my ey];
    cbn [notneg]; intros Hx Hy; subst; try exact I; try reflexivity.
  - now destruct sx, sy.
  - apply signed_notneg,
      (@fadd_signed false (S754_finite false mx ex) (S754_finite false my ey));
      reflexivity.
Qed.

(** ** Operations on numbers *)

Lemma thousand_eq : thousand = S754_finite false 8796093022208000 (-43).
Proof. reflexivity. Qed.

Lemma ensures_bind {A B : Type} (P : A -> Prop) (Q : B -> Prop)
    (m : result A) (k : A -> result B) :
  ensures P m -> (forall a, P a -> ensures Q (k a)) -> ensures Q (bind m k).
Proof. destruct m as [a | e]; cbn; auto. Qed.

Lemma to_float_ensures (a : number) : ensures (fun _ => True) (to_float a).
Proof.
  destruct a as [n | x | n | x]; cbn; auto.
  now destruct (is_finite (float_of_Z n)).
Qed.

(** [*], [+] and [-] raise nothing but [OverflowError]. *)
Lemma arith_ensures (zop : Z -> Z -> Z)
    (fop : spec_float -> spec_float -> spec_float) (a b : number) :
  ensures (fun _ => True) (arith zop fop a b).
Proof.
  destruct a as [m | x | m | x], b as [n | y | n | y]; cbn [arith];
    try exact I;
    try (destruct (in_int64 _); cbn; now auto);
    (eapply ensures_bind; [apply to_float_ensures |]; intros ? _;
     eapply ensures_bind; [apply to_float_ensures |]; intros ? _; exact I).
Qed.

(** The division by the literal [1000] never raises
    [ZeroDivisionError]. *)
Lemma truediv_thousand_ensures (a : number) :
  ensures (fun _ => True) (truediv a (PyInt 1000)).
Proof.
  destruct a as [m | x | m | x]; cbn [truediv]; try exact I.
  change (1000 =? 0) with false. cbn iota.
  now destruct (is_finite (fdiv (raw m) (raw 1000))).
Qed.

Lemma calculate_token_cost_ensures (g : globals) (r p c : number) :
  ensures (fun _ => True) (calculate_token_cost g r p c).
Proof.
  unfold calculate_token_cost, mul, add.
  repeat (eapply ensures_bind;
          [first [apply arith_ensures | apply truediv_thousand_ensures] |];
          intros ? _).
  exact I.
Qed.

(** ** The three kinds of arguments the notebook passes *)

Lemma mul_float_python (p : spec_float) (b : number) (y : spec_float) :
  is_numpy b = false -> to_float b = Return y ->
  mul (PyFloat p) b = Return (PyFloat (fmul p y)).
Proof.
  intros Hn Hb. unfold mul.
  destruct b as [n | z | n | z]; try discriminate Hn; cbn [arith];
    rewrite Hb; reflexivity.
Qed.

(** Step 3 and every call on floats: float token counts, a request count
    and a [days] that are Python numbers convertible to float, float
    rates. *)
Lemma calculate_token_cost_floats (g : globals) (r : number)
    (p c x d rate_in rate_out : spec_float) :
  is_numpy r = false -> to_float r = Return x ->
  is_numpy (days g) = false -> to_float (days g) = Return d ->
  prompt_cost_per_1k_tokens g = PyFloat rate_in ->
  completion_cost_per_1k_tokens g = PyFloat rate_out ->
  calculate_token_cost g r (PyFloat p) (PyFloat c)
  = Return (PyFloat (fadd (component p x d rate_in)
                          (component c x d rate_out)),
            PyFloat (component p x d rate_in),
            PyFloat (component c x d rate_out)).
Proof.
  intros Hr Hx Hd Hdx Hin Hout. unfold calculate_token_cost.
  rewrite !(mul_float_python _ _ Hr Hx). cbn [bind].
  rewrite !(mul_float_python _ _ Hd Hdx). cbn [bind].
  rewrite Hin, Hout. reflexivity.
Qed.

(** Step 1: Python ints for the counts and [days], float rates. *)
Lemma calculate_token_cost_ints (g : globals) (r p c d : Z)
    (rate_in rate_out : spec_float) :
  days g = PyInt d ->
  prompt_cost_per_1k_tokens g = PyFloat rate_in ->
  completion_cost_per_1k_tokens g = PyFloat rate_out ->
  let prompt_thousands := fdiv (raw (p * r * d)) (raw 1000) in
  let completion_thousands := fdiv (raw (c * r * d)) (raw 1000) in
  calculate_token_cost g (PyInt r) (PyInt p) (PyInt c)
  = if is_finite prompt_thousands && is_finite completion_thousands
    then Return (PyFloat (fadd (fmul prompt_thousands rate_in)
                               (fmul completion_thousands rate_out)),
                 PyFloat (fmul prompt_thousands rate_in),
                 PyFloat (fmul completion_thousands rate_out))
    else Raise OverflowError.
Proof.
  intros Hd Hin Hout. cbv zeta. unfold calculate_token_cost.
  rewrite Hd, Hin, Hout. cbn [mul arith bind truediv].
  change (1000 =? 0) with false. cbn iota.
  destruct (is_finite (fdiv (raw (p * r * d)) (raw 1000)));
    [| reflexivity].
  cbn [bind to_float].
  destruct (is_finite (fdiv (raw (c * r * d)) (raw 1000))); reflexivity.
Qed.

(** Step 2: int64 counts, a Python int [days] that fits 64 bits, float
    rates. *)
Lemma calculate_token_cost_int64 (g : globals) (r p c d : Z)
    (rate_in rate_out : spec_float) :
  days g = PyInt d -> in_int64 d = true ->
  prompt_cost_per_1k_tokens g = PyFloat rate_in ->
  completion_cost_per_1k_tokens g = PyFloat rate_out ->
  let prompt_thousands :=
    fdiv (float_of_Z (wrap64 (wrap64 (p * r) * d))) thousand in
  let completion_thousands :=
    fdiv (float_of_Z (wrap64 (wrap64 (c * r) * d))) thousand in
  calculate_token_cost g (NpInt64 r) (NpInt64 p) (NpInt64 c)
  = Return (NpFloat64 (fadd (fmul prompt_thousands rate_in)
                            (fmul completion_thousands rate_out)),
            NpFloat64 (fmul prompt_thousands rate_in),
            NpFloat64 (fmul completion_thousands rate_out)).
Proof.
  intros Hd Hfit Hin Hout. cbv zeta. unfold calculate_token_cost.
  rewrite Hd, Hin, Hout. cbn [mul arith bind]. rewrite Hfit.
  reflexivity.
Qed.

(** ** Non-negative Python numbers *)

Lemma to_float_nonnegative (a : number) :
  nonnegative a -> ensures notneg (to_float a).
Proof.
  destruct a as [n | x | n | x]; cbn [nonnegative to_float]; intro H;
    try contradiction; [| exact H].
  cbv zeta. destruct (is_finite (float_of_Z n)); cbn; [| reflexivity].
  now apply signed_notneg, float_of_Z_signed.
Qed.

Lemma arith_nonnegative (zop : Z -> Z -> Z)
    (fop : spec_float -> spec_float -> spec_float) (a b : number) :
  (forall m n, 0 <= m -> 0 <= n -> 0 <= zop m n) ->
  (forall x y, notneg x -> notneg y -> notneg (fop x y)) ->
  nonnegative a -> nonnegative b -> ensures nonnegative (arith zop fop a b).
Proof.
  intros Hz Hf Ha Hb.
  destruct a as [m | x | m | x], b as [n | y | n | y];
    cbn [nonnegative] in Ha, Hb; try contradiction; cbn [arith].
  - cbn. now apply Hz.
  - eapply ensures_bind; [now apply (to_float_nonnegative (PyInt m)) |].
    intros x Hx. cbn. now apply Hf.
  - eapply ensures_bind; [now apply (to_float_nonnegative (PyFloat x)) |].
    intros x' Hx. eapply ensures_bind;
      [now apply (to_float_nonnegative (PyInt n)) |].
    intros y Hy. cbn. now apply Hf.
  - cbn. now apply Hf.
Qed.

Lemma mul_nonnegative (a b : number) :
  nonnegative a -> nonnegative b -> ensures nonnegative (mul a b).
Proof.
  apply arith_nonnegative; [apply Z.mul_nonneg_nonneg | apply fmul_notneg].
Qed.

Lemma add_nonnegative (a b : number) :
  nonnegative a -> nonnegative b -> ensures nonnegative (add a b).
Proof.
  apply arith_nonnegative; [apply Z.add_nonneg_nonneg | apply fadd_notneg].
Qed.

Lemma truediv_thousand_nonnegative (a : number) :
  nonnegative a -> ensures nonnegative (truediv a (PyInt 1000)).
Proof.
  destruct a as [m | x | m | x]; cbn [nonnegative]; intro H;
    try contradiction; cbn [truediv].
  - change (1000 =? 0) with false. cbn iota.
    destruct (is_finite (fdiv (raw m) (raw 1000))); cbn; [| reflexivity].
    destruct m as [| m | m]; [exact I | | lia].
    now apply (fdiv_notneg (S754_finite false m 0)).
  - change (notneg (fdiv x thousand)).
    rewrite thousand_eq. now apply fdiv_notneg.
Qed.

(** With non-negative Python numbers for the arguments, [days] and the
    rates, the function raises [OverflowError] or returns three numbers that
    are not negative, the first being the sum of the other two. *)
Lemma calculate_token_cost_nonnegative (g : globals) (r p c : number) :
  nonnegative r -> nonnegative p -> nonnegative c ->
  nonnegative (days g) ->
  nonnegative (prompt_cost_per_1k_tokens g) ->
  nonnegative (completion_cost_per_1k_tokens g) ->
  ensures (fun x : number * number * number =>
             let '(t, i, o) := x in
             add i o = Return t
             /\ nonnegative t /\ nonnegative i /\ nonnegative o)
          (calculate_token_cost g r p c).
Proof.
  intros Hr Hp Hc Hd Hin Hout. unfold calculate_token_cost.
  eapply ensures_bind; [now apply mul_nonnegative |]. intros a1 H1.
  eapply ensures_bind; [now apply mul_nonnegative |]. intros a2 H2.
  eapply ensures_bind; [now apply mul_nonnegative |]. intros a3 H3.
  eapply ensures_bind; [now apply mul_nonnegative |]. intros a4 H4.
  eapply ensures_bind; [now apply truediv_thousand_nonnegative |].
  intros a5 H5.
  eapply ensures_bind; [now apply mul_nonnegative |]. intros i Hi.
  eapply ensures_bind; [now apply truediv_thousand_nonnegative |].
  intros a7 H7.
  eapply ensures_bind; [now apply mul_nonnegative |]. intros o Ho.
  pose proof (@add_nonnegative i o Hi Ho) as Ht.
  destruct (add i o) as [t | e] eqn:E; cbn in *; auto.
Qed.

(** ** Zeros *)






(** ** Signs *)

Lemma component_signed (s : bool) (tokens x : spec_float)
    (md mr : positive) (ed er : Z) :
  signed s (fmul tokens x) ->
  signed s (component tokens x (S754_finite false md ed)
              (S754_finite false mr er)).
Proof.
  intro H. unfold component. rewrite thousand_eq.
  replace s with (xorb (xorb (xorb s false) false) false)
    by now destruct s.
  now apply fmul_signed, fdiv_signed, fmul_signed.
Qed.

End PyFacts.

(** * The cost function as the code computes it *)

Section MachineArithmetic.

Local Open Scope Z_scope.

Import Py.

(** C1, as stated, fails: the function does not return the real-number
    formula.  On the valid input (7, 1, 1) every cost is rounded, and the
    input cost is not even the float nearest to the formula's 0.0063; on the
    valid input (10^400, 1, 1) the conversion to float raises
    [OverflowError]; on the valid int64 input (3000000000, 2000000000, 1)
    the token product wraps and the input cost is negative. *)
Lemma computeCost_not_the_real_formula :
  Py.calculate_token_cost Py.notebook (PyInt 7) (PyInt 1) (PyInt 1)
  = Return (PyFloat (dec 18899999999999997 (10 ^ 18)),
            PyFloat (dec 6299999999999999 (10 ^ 18)),
            PyFloat (dec 12599999999999998 (10 ^ 18)))
  /\ dec 6299999999999999 (10 ^ 18) <> dec 63 10000
  /\ Py.calculate_token_cost Py.notebook (PyInt (10 ^ 400)) (PyInt 1) (PyInt 1)
     = Raise OverflowError
  /\ Py.calculate_token_cost Py.notebook
       (NpInt64 3000000000) (NpInt64 2000000000) (NpInt64 1)
     = Return (NpFloat64 (dec (-13402321671286547) 100),
               NpFloat64 (dec (-13402322211286547) 100),
               NpFloat64 (float_of_Z 5400000)).
Proof.
  split; [vm_compute; reflexivity |].
  split; [vm_compute; discriminate |].
  split; vm_compute; reflexivity.
Qed.

(** C1, amended.  With float rates, [calculate_token_cost] returns the five
    steps evaluated in the arithmetic of its arguments.  On float token
    counts, with a request count and a [days] that are Python numbers
    convertible to float, every product, the division by 1000 and the sum
    are binary64 operations, each rounded.  On Python ints the token totals
    are exact integers, the division by 1000 is the correctly rounded
    quotient and the call raises [OverflowError] when a quotient is beyond
    the range of a float.  On int64 counts, with a [days] that fits 64 bits,
    the token totals wrap modulo 2^64 before they are converted. *)
Theorem computeCost_five_steps_rounded (g : Py.globals)
    (rate_in rate_out : spec_float) :
  Py.prompt_cost_per_1k_tokens g = PyFloat rate_in ->
  Py.completion_cost_per_1k_tokens g = PyFloat rate_out ->
  (forall (r : number) (p c x d : spec_float),
      is_numpy r = false -> to_float r = Return x ->
      is_numpy (Py.days g) = false -> to_float (Py.days g) = Return d ->
      Py.calculate_token_cost g r (PyFloat p) (PyFloat c)
      = Return (PyFloat (fadd (component p x d rate_in)
                              (component c x d rate_out)),
                PyFloat (component p x d rate_in),
                PyFloat (component c x d rate_out)))
  /\ (forall r p c d : Z,
         Py.days g = PyInt d ->
         let prompt_thousands := fdiv (raw (p * r * d)) (raw 1000) in
         let completion_thousands := fdiv (raw (c * r * d)) (raw 1000) in
         Py.calculate_token_cost g (PyInt r) (PyInt p) (PyInt c)
         = if is_finite prompt_thousands && is_finite completion_thousands
           then Return (PyFloat (fadd (fmul prompt_thousands rate_in)
                                      (fmul completion_thousands rate_out)),
                        PyFloat (fmul prompt_thousands rate_in),
                        PyFloat (fmul completion_thousands rate_out))
           else Raise OverflowError)
  /\ (forall r p c d : Z,
         Py.days g = PyInt d -> in_int64 d = true ->
         let prompt_thousands :=
           fdiv (float_of_Z (wrap64 (wrap64 (p * r) * d))) thousand in
         let completion_thousands :=
           fdiv (float_of_Z (wrap64 (wrap64 (c * r) * d))) thousand in
         Py.calculate_token_cost g (NpInt64 r) (NpInt64 p) (NpInt64 c)
         = Return (NpFloat64 (fadd (fmul prompt_thousands rate_in)
                                   (fmul completion_thousands rate_out)),
                   NpFloat64 (fmul prompt_thousands rate_in),
                   NpFloat64 (fmul completion_thousands rate_out))).
Proof.
  intros Hin Hout. split; [| split].
  - intros r p c x d Hr Hx Hd Hdx.
    now apply PyFacts.calculate_token_cost_floats.
  - intros r p c d Hd. now apply PyFacts.calculate_token_cost_ints.
  - intros r p c d Hd Hfit. now apply PyFacts.calculate_token_cost_int64.
Qed.

(** The three cells of the notebook: the baseline on Python ints, the
    optimized scenario on the float token counts 210.0 and 350.0, and the
    baseline combination of the sweep on int64 values. *)
Lemma computeCost_five_steps_rounded_witness :
  Py.calculate_token_cost Py.notebook (PyInt 1000) (PyInt 300) (PyInt 500)
  = Return (PyFloat (float_of_Z 1170), PyFloat (float_of_Z 270),
            PyFloat (float_of_Z 900))
  /\ Py.calculate_token_cost Py.notebook (PyInt 1000)
       (PyFloat (float_of_Z 210)) (PyFloat (float_of_Z 350))
     = Return (PyFloat (float_of_Z 819), PyFloat (float_of_Z 189),
               PyFloat (float_of_Z 630))
  /\ Py.calculate_token_cost Py.notebook
       (NpInt64 1000) (NpInt64 300) (NpInt64 500)
     = Return (NpFloat64 (float_of_Z 1170), NpFloat64 (float_of_Z 270),
               NpFloat64 (float_of_Z 900)).
Proof.
  destruct (@computeCost_five_steps_rounded Py.notebook (dec 3 100)
              (dec 6 100) eq_refl eq_refl) as (F & I & N).
  split; [| split].
  - rewrite (I 1000 300 500 30 eq_refl). vm_compute. reflexivity.
  - rewrite (F (PyInt 1000) (float_of_Z 210) (float_of_Z 350)
               (float_of_Z 1000) (float_of_Z 30) eq_refl eq_refl eq_refl
               eq_refl).
    vm_compute. reflexivity.
  - rewrite (N 1000 300 500 30 eq_refl eq_refl). vm_compute. reflexivity.
Defined.

(** C2, as stated, fails: nothing is validated.  A negative request count
    is not rejected, the call returns negative costs; and the valid request
    count 10^400 does not succeed, it raises [OverflowError]. *)
Lemma computeCost_invalid_input_returns :
  Py.calculate_token_cost Py.notebook (PyInt (-1000)) (PyInt 300) (PyInt 500)
  = Return (PyFloat (float_of_Z (-1170)), PyFloat (float_of_Z (-270)),
            PyFloat (float_of_Z (-900)))
  /\ ~ fails (Py.calculate_token_cost Py.notebook
                (PyInt (-1000)) (PyInt 300) (PyInt 500))
  /\ ~ succeeds (Py.calculate_token_cost Py.notebook
                   (PyInt (10 ^ 400)) (PyInt 1) (PyInt 1)).
Proof.
  assert (E : Py.calculate_token_cost Py.notebook
                (PyInt (-1000)) (PyInt 300) (PyInt 500)
              = Return (PyFloat (float_of_Z (-1170)),
                        PyFloat (float_of_Z (-270)),
                        PyFloat (float_of_Z (-900))))
    by (vm_compute; reflexivity).
  split; [exact E |]. split.
  - rewrite E. intros [e He]. discriminate He.
  - intros [a Ha]. vm_compute in Ha. discriminate Ha.
Qed.

(** C2, amended.  [calculate_token_cost] validates nothing and has no
    error for invalid input: whatever the arguments, [days] and the rates,
    the only exception it can raise is [OverflowError].  When the token
    counts are Python floats, the request count and [days] Python numbers
    that convert to float and the rates floats, it returns, whatever their
    values: negative, zero, fractional, infinite or NaN. *)
Theorem computeCost_never_rejects (g : Py.globals) (r p c : number) :
  (forall e : exception,
      Py.calculate_token_cost g r p c = Raise e -> e = OverflowError)
  /\ (forall x y z d rate_in rate_out : spec_float,
         p = PyFloat y -> c = PyFloat z ->
         is_numpy r = false -> to_float r = Return x ->
         is_numpy (Py.days g) = false -> to_float (Py.days g) = Return d ->
         Py.prompt_cost_per_1k_tokens g = PyFloat rate_in ->
         Py.completion_cost_per_1k_tokens g = PyFloat rate_out ->
         succeeds (Py.calculate_token_cost g r p c)).
Proof.
  split.
  - intros e He. pose proof (PyFacts.calculate_token_cost_ensures g r p c) as H.
    rewrite He in H. exact H.
  - intros x y z d rate_in rate_out -> -> Hr Hx Hd Hdx Hin Hout.
    rewrite (PyFacts.calculate_token_cost_floats g r y z Hr Hx Hd Hdx Hin Hout).
    eexists. reflexivity.
Qed.

(** A negative, fractional request count with float token counts. *)
Lemma computeCost_never_rejects_witness :
  succeeds (Py.calculate_token_cost Py.notebook (PyFloat (dec (-5) 2))
              (PyFloat (float_of_Z 300)) (PyFloat (float_of_Z 500))).
Proof.
  destruct (computeCost_never_rejects Py.notebook (PyFloat (dec (-5) 2))
              (PyFloat (float_of_Z 300)) (PyFloat (float_of_Z 500)))
    as [_ H].
  apply (H (dec (-5) 2) (float_of_Z 300) (float_of_Z 500) (float_of_Z 30)
           (dec 3 100) (dec 6 100)); reflexivity.
Defined.

(** C5, as stated, fails: a component need not be non-negative.  With the
    valid rate 0.0 and the valid request count 1e308 the token total
    overflows to infinity and the input cost and the total are NaN; with the
    valid int64 counts (3000000000, 2000000000, 1) the input cost and the
    total are negative. *)
Lemma computeCost_component_not_nonnegative :
  Py.calculate_token_cost
    {| Py.prompt_cost_per_1k_tokens := PyFloat (S754_zero false);
       Py.completion_cost_per_1k_tokens := PyFloat (dec 6 100);
       Py.base_daily_requests := PyInt 1000;
       Py.base_prompt_tokens := PyInt 300;
       Py.base_completion_tokens := PyInt 500;
       Py.days := PyInt 30 |}
    (PyFloat (float_of_Z (10 ^ 308))) (PyFloat (float_of_Z 1))
    (PyFloat (float_of_Z 1))
  = Return (PyFloat S754_nan, PyFloat S754_nan, PyFloat (S754_infinity false))
  /\ exists t i : spec_float,
       Py.calculate_token_cost Py.notebook
         (NpInt64 3000000000) (NpInt64 2000000000) (NpInt64 1)
       = Return (NpFloat64 t, NpFloat64 i, NpFloat64 (float_of_Z 5400000))
       /\ SFltb t (S754_zero false) = true
       /\ SFltb i (S754_zero false) = true.
Proof.
  split; [vm_compute; reflexivity |].
  exists (dec (-13402321671286547) 100), (dec (-13402322211286547) 100).
  repeat split; vm_compute; reflexivity.
Qed.

(** C5, amended.  When the arguments, [days] and the rates are Python
    numbers that are not negative (ints [>= 0], floats with the sign bit
    clear, zeros or NaN), the call raises [OverflowError] or returns a
    breakdown whose total is the sum of the other two components in the
    code's arithmetic and whose three components are not negative: each is
    a zero, a positive number, plus infinity or NaN.  When the token
    counts are Python floats and the request count and [days] convert to
    float it returns, and the total is the rounded binary64 sum. *)
Theorem computeCost_breakdown_invariant (g : Py.globals) (r p c : number) :
  nonnegative r -> nonnegative p -> nonnegative c ->
  nonnegative (Py.days g) ->
  nonnegative (Py.prompt_cost_per_1k_tokens g) ->
  nonnegative (Py.completion_cost_per_1k_tokens g) ->
  (Py.calculate_token_cost g r p c = Raise OverflowError
   \/ exists total_cost input_cost output_cost : number,
        Py.calculate_token_cost g r p c
        = Return (total_cost, input_cost, output_cost)
        /\ Py.add input_cost output_cost = Return total_cost
        /\ nonnegative total_cost /\ nonnegative input_cost
        /\ nonnegative output_cost)
  /\ (forall x y z d rate_in rate_out : spec_float,
         p = PyFloat y -> c = PyFloat z ->
         is_numpy r = false -> to_float r = Return x ->
         is_numpy (Py.days g) = false -> to_float (Py.days g) = Return d ->
         Py.prompt_cost_per_1k_tokens g = PyFloat rate_in ->
         Py.completion_cost_per_1k_tokens g = PyFloat rate_out ->
         exists t i o : spec_float,
           Py.calculate_token_cost g r p c
           = Return (PyFloat t, PyFloat i, PyFloat o)
           /\ t = fadd i o /\ notneg t /\ notneg i /\ notneg o).
Proof.
  intros Hr Hp Hc Hd Hin Hout.
  pose proof (@PyFacts.calculate_token_cost_nonnegative g r p c
                Hr Hp Hc Hd Hin Hout) as H.
  split.
  - destruct (Py.calculate_token_cost g r p c) as [[[t i] o] | e];
      cbn in H; [right | left; now subst].
    exists t, i, o. now split.
  - intros x y z d rate_in rate_out Ep Ec Nr Er Nd Ed Ein Eout. subst p c.
    rewrite (PyFacts.calculate_token_cost_floats g r y z Nr Er Nd Ed Ein Eout)
      in *. cbn in H. destruct H as (_ & Ht & Hi & Ho).
    do 3 eexists. split; [reflexivity |]. now split.
Qed.

Lemma computeCost_breakdown_invariant_witness :
  exists total_cost input_cost output_cost : number,
    Py.calculate_token_cost Py.notebook (PyInt 1000) (PyInt 300) (PyInt 500)
    = Return (total_cost, input_cost, output_cost)
    /\ Py.add input_cost output_cost = Return total_cost
    /\ nonnegative total_cost /\ nonnegative input_cost
    /\ nonnegative output_cost.
Proof.
  destruct (@computeCost_breakdown_invariant Py.notebook
              (PyInt 1000) (PyInt 300) (PyInt 500)) as [[E | H] _];
    try (cbn; first [lia | exact I | reflexivity]).
  - vm_compute in E. discriminate E.
  - exact H.
Defined.

(** C10, as stated, fails: the function is not total and a negative input
    need not give a negative cost.  The request count 10^400 raises
    [OverflowError]; the request count -1e-323 with token counts 1.0
    underflows and gives the costs (-0.0, -0.0, -0.0), none of which is
    below zero. *)
Lemma calculate_token_cost_not_total :
  Py.calculate_token_cost Py.notebook (PyInt (10 ^ 400)) (PyInt 1) (PyInt 1)
  = Raise OverflowError
  /\ dec (-1) (10 ^ 323) = S754_finite true 2 (-1074)
  /\ Py.calculate_token_cost Py.notebook (PyFloat (dec (-1) (10 ^ 323)))
       (PyFloat (float_of_Z 1)) (PyFloat (float_of_Z 1))
     = Return (PyFloat (S754_zero true), PyFloat (S754_zero true),
               PyFloat (S754_zero true))
  /\ SFltb (S754_zero true) (S754_zero false) = false.
Proof. repeat split; vm_compute; reflexivity. Qed.

(** C10, amended.  [calculate_token_cost] validates nothing; the only
    exception it can raise is [OverflowError] (its divisions are by the
    literal 1000).  When the token counts are Python floats, the request
    count and [days] Python numbers that convert to float and the rates
    floats, it returns the formula with every operation rounded to binary64.
    If moreover the request count is a negative number and the token counts,
    [days] and the rates are positive numbers, each of the three costs has
    its sign bit set and is not NaN: it is a negative number, -0.0 or minus
    infinity, never a positive cost. *)
Theorem calculate_token_cost_total (g : Py.globals) (r p c : number) :
  (forall e : exception,
      Py.calculate_token_cost g r p c = Raise e -> e = OverflowError)
  /\ (forall x y z d rate_in rate_out : spec_float,
         p = PyFloat y -> c = PyFloat z ->
         is_numpy r = false -> to_float r = Return x ->
         is_numpy (Py.days g) = false -> to_float (Py.days g) = Return d ->
         Py.prompt_cost_per_1k_tokens g = PyFloat rate_in ->
         Py.completion_cost_per_1k_tokens g = PyFloat rate_out ->
         Py.calculate_token_cost g r p c
         = Return (PyFloat (fadd (component y x d rate_in)
                                 (component z x d rate_out)),
                   PyFloat (component y x d rate_in),
                   PyFloat (component z x d rate_out))
         /\ (forall (mx my mz md m_in m_out : positive)
                    (ex ey ez ed e_in e_out : Z),
                x = S754_finite true mx ex ->
                y = S754_finite false my ey ->
                z = S754_finite false mz ez ->
                d = S754_finite false md ed ->
                rate_in = S754_finite false m_in e_in ->
                rate_out = S754_finite false m_out e_out ->
                signed true (fadd (component y x d rate_in)
                                  (component z x d rate_out))
                /\ signed true (component y x d rate_in)
                /\ signed true (component z x d rate_out))).
Proof.
  split.
  - intros e He. pose proof (PyFacts.calculate_token_cost_ensures g r p c) as H.
    rewrite He in H. exact H.
  - intros x y z d rate_in rate_out -> -> Hr Hx Hd Hdx Hin Hout.
    split; [now apply PyFacts.calculate_token_cost_floats |].
    intros mx my mz md m_in m_out ex ey ez ed e_in e_out -> -> -> -> -> ->.
    assert (I : signed true (component (S754_finite false my ey)
                               (S754_finite true mx ex)
                               (S754_finite false md ed)
                               (S754_finite false m_in e_in))).
    { apply PyFacts.component_signed.
      now apply (@PyFacts.fmul_signed false (S754_finite false my ey) true). }
    assert (O : signed true (component (S754_finite false mz ez)
                               (S754_finite true mx ex)
                               (S754_finite false md ed)
                               (S754_finite false m_out e_out))).
    { apply PyFacts.component_signed.
      now apply (@PyFacts.fmul_signed false (S754_finite false mz ez) true). }
    split; [now apply PyFacts.fadd_signed | now split].
Qed.

(** The notebook's parameters with the request count -1000.0. *)
Lemma calculate_token_cost_total_witness :
  Py.calculate_token_cost Py.notebook (PyFloat (float_of_Z (-1000)))
    (PyFloat (float_of_Z 300)) (PyFloat (float_of_Z 500))
  = Return (PyFloat (float_of_Z (-1170)), PyFloat (float_of_Z (-270)),
            PyFloat (float_of_Z (-900)))
  /\ signed true (float_of_Z (-1170))
  /\ signed true (float_of_Z (-270))
  /\ signed true (float_of_Z (-900)).
Proof.
  destruct (calculate_token_cost_total Py.notebook
              (PyFloat (float_of_Z (-1000))) (PyFloat (float_of_Z 300))
              (PyFloat (float_of_Z 500))) as [_ H].
  destruct (H (float_of_Z (-1000)) (float_of_Z 300) (float_of_Z 500)
              (float_of_Z 30) (dec 3 100) (dec 6 100)
              eq_refl eq_refl eq_refl eq_refl eq_refl eq_refl eq_refl eq_refl)
    as [E S].
  split; [rewrite E; vm_compute; reflexivity |].
  exact (S _ _ _ _ _ _ _ _ _ _ _ _
           eq_refl eq_refl eq_refl eq_refl eq_refl eq_refl).
Defined.

End MachineArithmetic.




(** * The savings print as the code computes it *)

(** X13. In the code's own arithmetic, when the baseline and the optimized
    call return Python floats, the last [print] raises [ZeroDivisionError]
    if the baseline total is a zero (0.0 or -0.0, also one reached by
    underflow) and otherwise returns the savings [b - o] and the percentage
    [((b - o) / b) * 100], each operation rounded to binary64. *)
Theorem cost_savings_rounded (g : Py.globals) (factor : Py.number)
    (b b_in b_out o o_in o_out : spec_float) :
  Py.baseline_costs g
  = Return (Py.PyFloat b, Py.PyFloat b_in, Py.PyFloat b_out) ->
  Py.optimized_costs g factor
  = Return (Py.PyFloat o, Py.PyFloat o_in, Py.PyFloat o_out) ->
  Py.cost_savings g factor
  = if Py.is_zero b then Raise ZeroDivisionError
    else Return (Py.PyFloat (Py.fsub b o),
                 Py.PyFloat (Py.fmul (Py.fdiv (Py.fsub b o) b)
                                     (Py.float_of_Z 100))).
Proof.
  intros Hb Ho. unfold Py.cost_savings. rewrite Hb, Ho.
  cbn [bind Py.sub Py.arith Py.to_float Py.truediv Py.is_numpy orb
       Py.float_result].
  destruct (Py.is_zero b); reflexivity.
Qed.

(** At the notebook's constants the savings are 351.0 and the percentage
    30.0; with 2000 daily requests over 7 days the percentage is
    30.000000000000004; with the request count 1e-323 and token counts 1 the
    baseline underflows to 0.0 and the print raises. *)
Lemma cost_savings_rounded_witness :
  Py.cost_savings Py.notebook (Py.PyFloat (Py.dec 7 10))
  = Return (Py.PyFloat (Py.float_of_Z 351), Py.PyFloat (Py.float_of_Z 30))
  /\ Py.cost_savings
       {| Py.prompt_cost_per_1k_tokens := Py.PyFloat (Py.dec 3 100);
          Py.completion_cost_per_1k_tokens := Py.PyFloat (Py.dec 6 100);
          Py.base_daily_requests := Py.PyInt 2000;
          Py.base_prompt_tokens := Py.PyInt 300;
          Py.base_completion_tokens := Py.PyInt 500;
          Py.days := Py.PyInt 7 |}
       (Py.PyFloat (Py.dec 7 10))
     = Return (Py.PyFloat (Py.dec 1638 10),
               Py.PyFloat (Py.dec 30000000000000004 (10 ^ 15)))
  /\ Py.cost_savings
       {| Py.prompt_cost_per_1k_tokens := Py.PyFloat (Py.dec 3 100);
          Py.completion_cost_per_1k_tokens := Py.PyFloat (Py.dec 6 100);
          Py.base_daily_requests := Py.PyFloat (Py.dec 1 (10 ^ 323));
          Py.base_prompt_tokens := Py.PyInt 1;
          Py.base_completion_tokens := Py.PyInt 1;
          Py.days := Py.PyInt 30 |}
       (Py.PyFloat (Py.dec 7 10))
     = Raise ZeroDivisionError.
Proof.
  split; [| split].
  - rewrite (@cost_savings_rounded Py.notebook (Py.PyFloat (Py.dec 7 10))
               (Py.float_of_Z 1170) (Py.float_of_Z 270) (Py.float_of_Z 900)
               (Py.float_of_Z 819) (Py.float_of_Z 189) (Py.float_of_Z 630));
      vm_compute; reflexivity.
  - vm_compute. reflexivity.
  - vm_compute. reflexivity.
Defined.
